(** * SELinux context executor (pkg/virt-handler/selinux/context_executor.go)

    A shallow embedding of the Go file.  Go functions become computations
    over an explicit operating-system state; every call that leaves the file
    (runtime, syscall, go-selinux, os/exec, NewSELinux) appends an event to a
    trace and takes its answer from an environment record, so that the order
    and number of the calls can be stated. *)

From Stdlib Require Import ZArith String List Lia.
From stdpp Require Import base decidable option list gmap strings pretty.

Local Open Scope Z_scope.
Local Open Scope string_scope.
Local Open Scope list_scope.

(** ** Data *)

(** Go's [error]: [nil], or a value known by its message. *)
Definition error := option string.

Definition is_err (err : error) : bool :=
  match err with Some _ => true | None => false end.

(** [err.Error()], as the verb [%v] prints a non-nil error. *)
Definition Error (err : error) : string :=
  match err with Some msg => msg | None => "<nil>" end.

(** What this file sees of an [exec.Cmd]: it is only ever run. *)
Record Cmd := mkCmd { Path : string; Args : list string }.

(** type ContextExecutor struct; [cmdToExecute] is a pointer, [None] is nil. *)
Record ContextExecutor := mkContextExecutor {
  cmdToExecute : option Cmd;
  desiredLabel : string;
  originalLabel : string;
  pid : Z }.

Definition minFDToCloseOnExec : Z := 3.
Definition maxFDToCloseOnExec : Z := 256.

(** ** The world outside the file *)

(** One event per call that leaves the file. *)
Inductive event :=
| EvNewSELinux
| EvLockOSThread
| EvUnlockOSThread
| EvSetExecLabel (label : string)
| EvFileLabel (path : string)
| EvCloseOnExec (fd : Z)
| EvRun (cmd : option Cmd).

(** The state the calls act on: the calls made so far, how often the
    goroutine is wired to its thread, the thread's exec label, and the open
    file descriptors with their close-on-exec flag. *)
Record OS := mkOS {
  trace : list event;
  thread_locks : nat;
  exec_label : string;
  fds : gmap Z bool }.

Definition log (e : event) (os : OS) : OS :=
  mkOS (trace os ++ [e]) (thread_locks os) (exec_label os) (fds os).

Definition with_thread_locks (n : nat) (os : OS) : OS :=
  mkOS (trace os) n (exec_label os) (fds os).

Definition with_exec_label (l : string) (os : OS) : OS :=
  mkOS (trace os) (thread_locks os) l (fds os).

Definition with_fds (m : gmap Z bool) (os : OS) : OS :=
  mkOS (trace os) (thread_locks os) (exec_label os) m.

(** The answers of the outside world.  Each one may depend on the state at
    the time of the call (and so on everything that happened before). *)
Record Env := mkEnv {
  env_pid : Z;                                   (* os.Getpid() *)
  env_NewSELinux : OS -> bool * error;           (* NewSELinux(), handle dropped *)
  env_FileLabel : OS -> string -> string * error;  (* selinux.FileLabel *)
  env_SetExecLabel : OS -> string -> error;      (* selinux.SetExecLabel *)
  env_Run : OS -> Cmd -> error }.                (* cmd.Run() of os/exec *)

(** ** Computations *)

(** A call either comes back with a value or panics. *)
Inductive result (A : Type) :=
| Val (a : A)
| Panic (msg : string).
Arguments Val {A} a.
Arguments Panic {A} msg.

Definition M (A : Type) : Type := OS -> result A * OS.

(** A statement of a function body with result type [R]: it falls through
    with a value, executes [return], or panics; [defer] pushes a call on the
    function's stack of deferred calls. *)
Inductive completion (R A : Type) :=
| Normal (a : A)
| Returned (r : R)
| Panicked (msg : string).
Arguments Normal {R A} a.
Arguments Returned {R A} r.
Arguments Panicked {R A} msg.

Definition Stmt (R A : Type) : Type :=
  list (M unit) -> OS -> completion R A * (list (M unit) * OS).

Definition sret {R A} (a : A) : Stmt R A :=
  fun ds os => (Normal a, (ds, os)).

Definition sbind {R A B} (k : A -> Stmt R B) (s : Stmt R A) : Stmt R B :=
  fun ds os =>
    match s ds os with
    | (Normal a, (ds', os')) => k a ds' os'
    | (Returned r, st) => (Returned r, st)
    | (Panicked p, st) => (Panicked p, st)
    end.

#[global] Instance Stmt_ret {R} : MRet (Stmt R) := @sret R.
#[global] Instance Stmt_bind {R} : MBind (Stmt R) := @sbind R.

(** [return r] *)
Definition return_ {R A} (r : R) : Stmt R A :=
  fun ds os => (Returned r, (ds, os)).

(** A call of [m] as a statement. *)
Definition call {R A} (m : M A) : Stmt R A :=
  fun ds os =>
    match m os with
    | (Val a, os') => (Normal a, (ds, os'))
    | (Panic p, os') => (Panicked p, (ds, os'))
    end.

(** The results of a deferred call are dropped. *)
Definition discard {A} (m : M A) : M unit :=
  fun os =>
    match m os with
    | (Val _, os') => (Val tt, os')
    | (Panic p, os') => (Panic p, os')
    end.

(** [defer m]: the call is pushed, to run when the function is left. *)
Definition defer {R A} (m : M A) : Stmt R unit :=
  fun ds os => (Normal tt, (discard m :: ds, os)).

(** [if b { s }] *)
Definition when {R} (b : bool) (s : Stmt R unit) : Stmt R unit :=
  if b then s else sret tt.

(** [for fd := lo; fd < hi; fd++ { body fd }] *)
Definition for_range {R} (lo hi : Z) (body : Z -> Stmt R unit) : Stmt R unit :=
  foldr (fun fd rest => sbind (fun _ => rest) (body fd)) (sret tt)
        (seqZ lo (hi - lo)).

(** Leaving a function: the deferred calls run, last pushed first.  The
    function's result is not named, so they cannot change it; a panic of a
    deferred call replaces the outcome. *)
Fixpoint run_deferred {R} (ds : list (M unit)) (r : result R) (os : OS)
  : result R * OS :=
  match ds with
  | [] => (r, os)
  | d :: ds' =>
      match d os with
      | (Val _, os') => run_deferred ds' r os'
      | (Panic p, os') => run_deferred ds' (Panic p) os'
      end
  end.

(** A function with body [body]. *)
Definition func {R} (body : Stmt R R) : M R :=
  fun os =>
    match body [] os with
    | (Normal r, (ds, os')) => run_deferred ds (Val r) os'
    | (Returned r, (ds, os')) => run_deferred ds (Val r) os'
    | (Panicked p, (ds, os')) => run_deferred ds (Panic p) os'
    end.

(** ** The calls that leave the file *)

Section Program.
Variable env : Env.

(** runtime.LockOSThread(): wires the goroutine to its thread; calls nest. *)
Definition runtime_LockOSThread : M unit :=
  fun os => (Val tt, with_thread_locks (S (thread_locks os)) (log EvLockOSThread os)).

(** runtime.UnlockOSThread(): undoes one LockOSThread; a no-op without one. *)
Definition runtime_UnlockOSThread : M unit :=
  fun os => (Val tt, with_thread_locks (Nat.pred (thread_locks os)) (log EvUnlockOSThread os)).

(** selinux.SetExecLabel(label): on success the thread's exec label is
    [label]; on failure it is left as it was. *)
Definition selinux_SetExecLabel (label : string) : M error :=
  fun os =>
    match env_SetExecLabel env os label with
    | None => (Val None, with_exec_label label (log (EvSetExecLabel label) os))
    | Some e => (Val (Some e), log (EvSetExecLabel label) os)
    end.

(** selinux.FileLabel(path) *)
Definition selinux_FileLabel (path : string) : M (string * error) :=
  fun os => (Val (env_FileLabel env os path), log (EvFileLabel path) os).

(** os.Getpid() *)
Definition os_Getpid : M Z :=
  fun os => (Val (env_pid env), os).

(** syscall.CloseOnExec(fd): fcntl(fd, F_SETFD, FD_CLOEXEC) with the result
    dropped; nothing happens for a descriptor that is not open. *)
Definition syscall_CloseOnExec (fd : Z) : M unit :=
  fun os => (Val tt, with_fds (alter (fun _ => true) fd (fds os)) (log (EvCloseOnExec fd) os)).

(** NewSELinux() of this package, whose handle the caller drops. *)
Definition NewSELinux : M (bool * error) :=
  fun os => (Val (env_NewSELinux env os), log EvNewSELinux os).

(** cmd.Run(): a nil receiver is dereferenced and panics.  The event records
    the call, with the receiver it was made on. *)
Definition Cmd_Run (cmd : option Cmd) : M error :=
  fun os =>
    match cmd with
    | None => (Panic "invalid memory address or nil pointer dereference", log (EvRun cmd) os)
    | Some c => (Val (env_Run env os c), log (EvRun cmd) os)
    end.

(** ** The functions of the file *)

(** func getLabelForPID(pid int) (string, error) *)
Definition getLabelForPID (pid : Z) : M (string * error) :=
  func (
    '(fileLabel, err) ← call (selinux_FileLabel ("/proc/" +:+ pretty pid +:+ "/attr/current"));
    when (is_err err)
      (return_ ("", Some ("could not retrieve pid " +:+ pretty pid +:+ " selinux label: " +:+ Error err)));;
    return_ (fileLabel, None)).

(** func NewContextExecutor(pid int, cmd exec.Cmd pointer): a ContextExecutor
    pointer ([None] is nil) and an error *)
Definition NewContextExecutor (pid : Z) (cmd : option Cmd)
  : M (option ContextExecutor * error) :=
  func (
    '(desiredLabel, err) ← call (getLabelForPID pid);
    when (is_err err) (return_ (None, err));;
    self ← call os_Getpid;
    '(originalLabel, err) ← call (getLabelForPID self);
    when (is_err err) (return_ (None, err));;
    return_ (Some {| pid := pid;
                     cmdToExecute := cmd;
                     desiredLabel := desiredLabel;
                     originalLabel := originalLabel |}, None)).

(** func isSELinuxEnabled() bool *)
Definition isSELinuxEnabled : M bool :=
  func (
    '(selinuxEnabled, err) ← call NewSELinux;
    return_ (negb (is_err err) && selinuxEnabled)).

(** func (ce ContextExecutor) setDesiredContext() error *)
Definition setDesiredContext (ce : ContextExecutor) : M error :=
  func (
    call runtime_LockOSThread;;
    err ← call (selinux_SetExecLabel (desiredLabel ce));
    when (is_err err)
      (return_ (Some ("failed to switch selinux context to " +:+ desiredLabel ce
                      +:+ ". Reason: " +:+ Error err)));;
    return_ None).

(** func (ce ContextExecutor) resetContext() error *)
Definition resetContext (ce : ContextExecutor) : M error :=
  func (
    defer runtime_UnlockOSThread;;
    err ← call (selinux_SetExecLabel (originalLabel ce));
    return_ err).

(** func preventFDLeakOntoChild() *)
Definition preventFDLeakOntoChild : M unit :=
  func (
    for_range minFDToCloseOnExec maxFDToCloseOnExec (fun fd =>
      call (syscall_CloseOnExec fd))).

(** func (ce ContextExecutor) Execute() error *)
Definition Execute (ce : ContextExecutor) : M error :=
  func (
    enabled ← call isSELinuxEnabled;
    when enabled (
      err ← call (setDesiredContext ce);
      when (is_err err) (return_ err);;
      defer (resetContext ce));;
    call preventFDLeakOntoChild;;
    err ← call (Cmd_Run (cmdToExecute ce));
    when (is_err err)
      (return_ (Some ("failed to execute command in launcher namespace "
                      +:+ pretty (pid ce) +:+ ": " +:+ Error err)));;
    return_ None).

End Program.

(** ** Reading a run *)

(** The effect of one [syscall.CloseOnExec fd] on the state. *)
Definition mark_close_on_exec (os : OS) (fd : Z) : OS :=
  with_fds (alter (fun _ => true) fd (fds os)) (log (EvCloseOnExec fd) os).

(** The descriptors the loop of [preventFDLeakOntoChild] visits, in order. *)
Definition hygiene_fds : list Z :=
  seqZ minFDToCloseOnExec (maxFDToCloseOnExec - minFDToCloseOnExec).

(** The state [preventFDLeakOntoChild] leaves. *)
Definition hygiene (os : OS) : OS := foldl mark_close_on_exec os hygiene_fds.

(** The events of descriptor hygiene. *)
Definition hygiene_events : list event := EvCloseOnExec <$> hygiene_fds.

(** The events logged between state [os] and a later state [os']. *)
Definition events_since (os os' : OS) : list event :=
  drop (length (trace os)) (trace os').

(** The labels of the [selinux.SetExecLabel] calls of a trace, in order. *)
Definition label_sets (tr : list event) : list string :=
  omap (fun e => match e with EvSetExecLabel l => Some l | _ => None end) tr.

(** The paths of the [selinux.FileLabel] reads of a trace, in order. *)
Definition label_reads (tr : list event) : list string :=
  omap (fun e => match e with EvFileLabel p => Some p | _ => None end) tr.

(** The commands run in a trace. *)
Definition runs (tr : list event) : list (option Cmd) :=
  omap (fun e => match e with EvRun c => Some c | _ => None end) tr.

(** The number of [runtime.UnlockOSThread] calls of a trace. *)
Definition unlocks (tr : list event) : nat :=
  length (omap (fun e => match e with EvUnlockOSThread => Some tt | _ => None end) tr).

(** The file [getLabelForPID] reads for [pid]. *)
Definition attr_current (pid : Z) : string :=
  "/proc/" +:+ pretty pid +:+ "/attr/current".

(** What [Execute] makes of the outcome of [cmd.Run()]. *)
Definition child_result (ce : ContextExecutor) (r : result error) : result error :=
  match r with
  | Val None => Val None
  | Val (Some e) =>
      Val (Some ("failed to execute command in launcher namespace "
                 +:+ pretty (pid ce) +:+ ": " +:+ e))
  | Panic p => Panic p
  end.

(** ** Claims that quantify over every call *)

(** The restoration failure is what [Execute] returns: the label switch and
    the child succeeded, [resetContext] failed with [e], and [e] is the
    result. *)
Definition restore_failure_is_returned (env : Env) (ce : ContextExecutor) (os : OS) : Prop :=
  forall os1 os2 os3 e os4,
    isSELinuxEnabled env os = (Val true, os1) ->
    setDesiredContext env ce os1 = (Val None, os2) ->
    Cmd_Run env (cmdToExecute ce) (hygiene os2) = (Val None, os3) ->
    resetContext env ce os3 = (Val (Some e), os4) ->
    (Execute env ce os).1 = Val (Some e).

(** The label reads of one [NewContextExecutor pid cmd]. *)
Definition resolver_invocations (env : Env) (pid : Z) (cmd : option Cmd) (os : OS)
  : list string :=
  label_reads (events_since os (NewContextExecutor env pid cmd os).2).

(** The resolver is invoked exactly twice: for the target, then for the caller. *)
Definition resolver_invoked_twice (env : Env) (pid : Z) (cmd : option Cmd) (os : OS) : Prop :=
  resolver_invocations env pid cmd os = [attr_current pid; attr_current (env_pid env)].

(** ** Hosts and inputs to run the functions on *)

(** A host whose process is pid 1 with label ctx_a, where pid 42 has label
    ctx_b; [selinux] is what NewSELinux answers, the files in [unreadable]
    cannot be read, the labels in [denied] cannot be set, and /bin/false
    exits with status 1. *)
Definition host (selinux : bool * error) (unreadable denied : list string) : Env :=
  {| env_pid := 1;
     env_NewSELinux := fun _ => selinux;
     env_FileLabel := fun _ path =>
       if bool_decide (path ∈ unreadable) then ("", Some "no such file or directory")
       else if String.eqb path "/proc/42/attr/current" then ("ctx_b", None)
       else ("ctx_a", None);
     env_SetExecLabel := fun _ label =>
       if bool_decide (label ∈ denied) then Some "permission denied" else None;
     env_Run := fun _ c =>
       if String.eqb (Path c) "/bin/false" then Some "exit status 1" else None |}.

Definition host_enforcing : Env := host (true, None) [] [].
Definition host_disabled : Env := host (false, None) [] [].
Definition host_without_selinux : Env := host (true, Some "selinux not present") [] [].
Definition host_switch_denied : Env := host (true, None) [] ["ctx_b"].
Definition host_restore_denied : Env := host (true, None) [] ["ctx_a"].
Definition host_no_target : Env := host (true, None) ["/proc/42/attr/current"] [].
Definition host_no_self : Env := host (true, None) ["/proc/1/attr/current"] [].

(** A host where the label of pid 1 changes after the first read. *)
Definition host_relabelled : Env :=
  {| env_pid := 1;
     env_NewSELinux := fun _ => (true, None);
     env_FileLabel := fun os _ =>
       match label_reads (trace os) with
       | [] => ("ctx_a", None)
       | _ => ("ctx_c", None)
       end;
     env_SetExecLabel := fun _ _ => None;
     env_Run := fun _ _ => None |}.

Definition cmd_true : option Cmd := Some (mkCmd "/bin/true" ["/bin/true"]).
Definition cmd_false : option Cmd := Some (mkCmd "/bin/false" ["/bin/false"]).

Definition ce_true : ContextExecutor :=
  {| cmdToExecute := cmd_true; desiredLabel := "ctx_b"; originalLabel := "ctx_a"; pid := 42 |}.
Definition ce_false : ContextExecutor :=
  {| cmdToExecute := cmd_false; desiredLabel := "ctx_b"; originalLabel := "ctx_a"; pid := 42 |}.

(** Nothing called yet, the goroutine not wired, label ctx_a; descriptors
    0 to 3, 7 and 300 open, none close-on-exec. *)
Definition os0 : OS :=
  mkOS [] 0 "ctx_a"
    (list_to_map [(0, false); (1, false); (2, false); (3, false); (7, false); (300, false)]).

(** The number of [NewSELinux] calls of a trace. *)
Definition probes (tr : list event) : nat :=
  length (omap (fun e => match e with EvNewSELinux => Some tt | _ => None end) tr).

(** The descriptors of the [syscall.CloseOnExec] calls of a trace, in order. *)
Definition closes (tr : list event) : list Z :=
  omap (fun e => match e with EvCloseOnExec fd => Some fd | _ => None end) tr.

(** An executor built with a nil command. *)
Definition ce_nil : ContextExecutor :=
  {| cmdToExecute := None; desiredLabel := "ctx_b"; originalLabel := "ctx_a"; pid := 42 |}.

(** ** Stepping through the functions *)

Lemma trace_log (e : event) (os : OS) : trace (log e os) = trace os ++ [e].
Proof. reflexivity. Qed.
Lemma thread_locks_log (e : event) (os : OS) : thread_locks (log e os) = thread_locks os.
Proof. reflexivity. Qed.
Lemma exec_label_log (e : event) (os : OS) : exec_label (log e os) = exec_label os.
Proof. reflexivity. Qed.
Lemma fds_log (e : event) (os : OS) : fds (log e os) = fds os.
Proof. reflexivity. Qed.
Lemma trace_with_thread_locks (n : nat) (os : OS) :
  trace (with_thread_locks n os) = trace os.
Proof. reflexivity. Qed.
Lemma trace_with_exec_label (l : string) (os : OS) :
  trace (with_exec_label l os) = trace os.
Proof. reflexivity. Qed.
Lemma trace_with_fds (m : gmap Z bool) (os : OS) : trace (with_fds m os) = trace os.
Proof. reflexivity. Qed.

Lemma events_since_app (os os' : OS) (l : list event) :
  trace os' = trace os ++ l -> events_since os os' = l.
Proof. intros E. unfold events_since. rewrite E. apply drop_app_length. Qed.

Lemma for_range_call (f : Z -> M unit) (g : OS -> Z -> OS) (l : list Z) :
  (forall fd os, f fd os = (Val tt, g os fd)) ->
  forall (ds : list (M unit)) (os : OS),
    foldr (fun fd rest => sbind (fun _ => rest) (call (R := unit) (f fd))) (sret tt) l ds os
    = (Normal tt, (ds, foldl g os l)).
Proof.
  intros Hf. induction l as [|fd l IH]; intros ds os; simpl.
  - reflexivity.
  - unfold sbind at 1, call at 1. rewrite Hf. apply IH.
Qed.

Lemma preventFDLeakOntoChild_eq (os : OS) :
  preventFDLeakOntoChild os = (Val tt, hygiene os).
Proof.
  unfold preventFDLeakOntoChild, func, for_range.
  rewrite (for_range_call syscall_CloseOnExec mark_close_on_exec) by reflexivity.
  reflexivity.
Qed.

Section Steps.
Variable env : Env.

Lemma isSELinuxEnabled_eq (os : OS) :
  isSELinuxEnabled env os
  = (Val (negb (is_err (env_NewSELinux env os).2) && (env_NewSELinux env os).1),
     log EvNewSELinux os).
Proof.
  unfold isSELinuxEnabled, func, mbind, Stmt_bind, sbind, call, NewSELinux, return_.
  destruct (env_NewSELinux env os) as [en err]. reflexivity.
Qed.

Lemma setDesiredContext_eq (ce : ContextExecutor) (os : OS) :
  setDesiredContext env ce os
  = let os1 := with_thread_locks (S (thread_locks os)) (log EvLockOSThread os) in
    match env_SetExecLabel env os1 (desiredLabel ce) with
    | None =>
        (Val None,
         with_exec_label (desiredLabel ce) (log (EvSetExecLabel (desiredLabel ce)) os1))
    | Some e =>
        (Val (Some ("failed to switch selinux context to " +:+ desiredLabel ce
                    +:+ ". Reason: " +:+ e)),
         log (EvSetExecLabel (desiredLabel ce)) os1)
    end.
Proof.
  unfold setDesiredContext, func, mbind, Stmt_bind, sbind, call,
    runtime_LockOSThread, selinux_SetExecLabel, return_, when.
  cbv zeta.
  destruct (env_SetExecLabel env _ (desiredLabel ce)); reflexivity.
Qed.

Lemma resetContext_eq (ce : ContextExecutor) (os : OS) :
  resetContext env ce os
  = match env_SetExecLabel env os (originalLabel ce) with
    | None =>
        (Val None,
         with_thread_locks (Nat.pred (thread_locks os))
           (log EvUnlockOSThread
              (with_exec_label (originalLabel ce)
                 (log (EvSetExecLabel (originalLabel ce)) os))))
    | Some e =>
        (Val (Some e),
         with_thread_locks (Nat.pred (thread_locks os))
           (log EvUnlockOSThread (log (EvSetExecLabel (originalLabel ce)) os)))
    end.
Proof.
  unfold resetContext, func, mbind, Stmt_bind, sbind, call, defer, discard,
    runtime_UnlockOSThread, selinux_SetExecLabel, return_.
  destruct (env_SetExecLabel env os (originalLabel ce)); reflexivity.
Qed.

Lemma getLabelForPID_eq (p : Z) (os : OS) :
  getLabelForPID env p os
  = (match env_FileLabel env os (attr_current p) with
     | (fileLabel, None) => Val (fileLabel, None)
     | (_, Some e) =>
         Val ("", Some ("could not retrieve pid " +:+ pretty p
                        +:+ " selinux label: " +:+ e))
     end,
     log (EvFileLabel (attr_current p)) os).
Proof.
  unfold getLabelForPID, func, mbind, Stmt_bind, sbind, call, selinux_FileLabel,
    return_, when, attr_current.
  destruct (env_FileLabel env os _) as [l [e|]]; reflexivity.
Qed.

Lemma Execute_eq (ce : ContextExecutor) (os : OS) :
  Execute env ce os
  = match isSELinuxEnabled env os with
    | (Val true, os1) =>
        match setDesiredContext env ce os1 with
        | (Val None, os2) =>
            let (r, os3) := Cmd_Run env (cmdToExecute ce) (hygiene os2) in
            let (r', os4) := resetContext env ce os3 in
            (match r' with Val _ => child_result ce r | Panic p => Panic p end, os4)
        | (Val (Some e), os2) => (Val (Some e), os2)
        | (Panic p, os2) => (Panic p, os2)
        end
    | (Val false, os1) =>
        let (r, os3) := Cmd_Run env (cmdToExecute ce) (hygiene os1) in
        (child_result ce r, os3)
    | (Panic p, os1) => (Panic p, os1)
    end.
Proof.
  cbv beta iota zeta delta
    [Execute func mbind Stmt_bind sbind call when return_ defer sret discard].
  destruct (isSELinuxEnabled env os) as [[[|]|p] os1]; [| |reflexivity].
  - destruct (setDesiredContext env ce os1) as [[[e|]|p] os2];
      [reflexivity| |reflexivity].
    cbn [is_err]. rewrite preventFDLeakOntoChild_eq.
    destruct (Cmd_Run env (cmdToExecute ce) (hygiene os2)) as [[[e|]|p] os3];
      cbn [is_err Error run_deferred child_result];
      destruct (resetContext env ce os3) as [[r'|p'] os4]; reflexivity.
  - rewrite preventFDLeakOntoChild_eq.
    destruct (Cmd_Run env (cmdToExecute ce) (hygiene os1)) as [[[e|]|p] os3];
      reflexivity.
Qed.

End Steps.

Section Construction.
Variable env : Env.

Lemma NewContextExecutor_eq (p : Z) (cmd : option Cmd) (os : OS) :
  NewContextExecutor env p cmd os
  = match getLabelForPID env p os with
    | (Val (desired, None), os1) =>
        match getLabelForPID env (env_pid env) os1 with
        | (Val (original, None), os2) =>
            (Val (Some {| pid := p; cmdToExecute := cmd;
                          desiredLabel := desired; originalLabel := original |},
                  None), os2)
        | (Val (_, Some e), os2) => (Val (None, Some e), os2)
        | (Panic msg, os2) => (Panic msg, os2)
        end
    | (Val (_, Some e), os1) => (Val (None, Some e), os1)
    | (Panic msg, os1) => (Panic msg, os1)
    end.
Proof.
  cbv beta iota zeta delta
    [NewContextExecutor func mbind Stmt_bind sbind call when return_ sret os_Getpid].
  destruct (getLabelForPID env p os) as [[[desired [e|]]|msg] os1];
    cbn [is_err run_deferred]; try reflexivity.
  destruct (getLabelForPID env (env_pid env) os1) as [[[original [e|]]|msg] os2];
    reflexivity.
Qed.

End Construction.

(** ** Descriptor hygiene *)

Lemma foldl_mark_trace (l : list Z) (os : OS) :
  trace (foldl mark_close_on_exec os l) = trace os ++ (EvCloseOnExec <$> l).
Proof.
  revert os. induction l as [|fd l IH]; intros os; simpl.
  - symmetry. apply app_nil_r.
  - rewrite IH. simpl. rewrite <- app_assoc. reflexivity.
Qed.

Lemma foldl_mark_rest (l : list Z) (os : OS) :
  thread_locks (foldl mark_close_on_exec os l) = thread_locks os
  /\ exec_label (foldl mark_close_on_exec os l) = exec_label os.
Proof.
  revert os. induction l as [|fd l IH]; intros os; simpl; [tauto|].
  destruct (IH (mark_close_on_exec os fd)) as [-> ->]. split; reflexivity.
Qed.

Lemma foldl_mark_fds (l : list Z) (os : OS) (fd : Z) :
  fds (foldl mark_close_on_exec os l) !! fd
  = if decide (fd ∈ l) then (fun _ => true) <$> fds os !! fd else fds os !! fd.
Proof.
  revert os. induction l as [|x l IH]; intros os; simpl.
  - destruct (decide (fd ∈ [])) as [H|_]; [inversion H|reflexivity].
  - rewrite IH. simpl.
    destruct (decide (x = fd)) as [->|Hne].
    + rewrite lookup_alter_eq.
      destruct (decide (fd ∈ fd :: l)) as [_|H]; [|exfalso; apply H; left].
      destruct (decide (fd ∈ l)); destruct (fds os !! fd); reflexivity.
    + rewrite lookup_alter_ne by exact Hne.
      destruct (decide (fd ∈ l)) as [Hin|Hnin];
        destruct (decide (fd ∈ x :: l)) as [Hin'|Hnin']; try reflexivity.
      * exfalso. apply Hnin'. right. exact Hin.
      * exfalso. apply elem_of_cons in Hin' as [->|?]; [apply Hne; reflexivity|auto].
Qed.

Lemma foldl_mark_fds_eq (l : list Z) (os os' : OS) :
  fds os = fds os' ->
  fds (foldl mark_close_on_exec os l) = fds (foldl mark_close_on_exec os' l).
Proof.
  revert os os'. induction l as [|fd l IH]; intros os os' E; simpl; [exact E|].
  apply IH. simpl. rewrite E. reflexivity.
Qed.

Lemma hygiene_fds_eq (os os' : OS) :
  fds os = fds os' -> fds (hygiene os) = fds (hygiene os').
Proof. apply foldl_mark_fds_eq. Qed.

Lemma hygiene_thread_locks (os : OS) : thread_locks (hygiene os) = thread_locks os.
Proof. apply foldl_mark_rest. Qed.

Lemma hygiene_exec_label (os : OS) : exec_label (hygiene os) = exec_label os.
Proof. apply foldl_mark_rest. Qed.

Lemma elem_of_hygiene_fds (fd : Z) : fd ∈ hygiene_fds <-> 3 <= fd <= 255.
Proof.
  unfold hygiene_fds, minFDToCloseOnExec, maxFDToCloseOnExec.
  rewrite elem_of_seqZ. lia.
Qed.

Lemma hygiene_trace (os : OS) : trace (hygiene os) = trace os ++ hygiene_events.
Proof. apply foldl_mark_trace. Qed.

Lemma hygiene_fds_lookup (os : OS) (fd : Z) :
  fds (hygiene os) !! fd
  = if decide (3 <= fd <= 255) then (fun _ => true) <$> fds os !! fd else fds os !! fd.
Proof.
  unfold hygiene. rewrite foldl_mark_fds.
  destruct (decide (fd ∈ hygiene_fds)) as [H|H];
    destruct (decide (3 <= fd <= 255)) as [H'|H']; try reflexivity;
    rewrite elem_of_hygiene_fds in H; contradiction.
Qed.

(** ** What each step leaves behind *)

Lemma label_sets_hygiene : label_sets hygiene_events = [].
Proof. reflexivity. Qed.

Lemma runs_hygiene : runs hygiene_events = [].
Proof. reflexivity. Qed.

Lemma unlocks_hygiene : unlocks hygiene_events = 0%nat.
Proof. reflexivity. Qed.

Section States.
Variable env : Env.

Lemma isSELinuxEnabled_state (os os1 : OS) (b : result bool) :
  isSELinuxEnabled env os = (b, os1) -> os1 = log EvNewSELinux os.
Proof. rewrite isSELinuxEnabled_eq. congruence. Qed.

Lemma setDesiredContext_state (ce : ContextExecutor) (os1 os2 : OS) (r : result error) :
  setDesiredContext env ce os1 = (r, os2) ->
  trace os2 = trace os1 ++ [EvLockOSThread; EvSetExecLabel (desiredLabel ce)]
  /\ thread_locks os2 = S (thread_locks os1)
  /\ fds os2 = fds os1
  /\ (r = Val None -> exec_label os2 = desiredLabel ce)
  /\ (r <> Val None -> exec_label os2 = exec_label os1).
Proof.
  rewrite setDesiredContext_eq. cbv zeta.
  destruct (env_SetExecLabel env _ (desiredLabel ce)) as [e|];
    intros [= <- <-]; cbn [trace thread_locks fds exec_label log with_thread_locks
                             with_exec_label];
    rewrite <- app_assoc; repeat split; congruence.
Qed.

Lemma resetContext_state (ce : ContextExecutor) (os3 os4 : OS) (r : result error) :
  resetContext env ce os3 = (r, os4) ->
  r = Val (env_SetExecLabel env os3 (originalLabel ce))
  /\ trace os4 = trace os3 ++ [EvSetExecLabel (originalLabel ce); EvUnlockOSThread]
  /\ thread_locks os4 = Nat.pred (thread_locks os3)
  /\ fds os4 = fds os3
  /\ (r = Val None -> exec_label os4 = originalLabel ce).
Proof.
  rewrite resetContext_eq.
  destruct (env_SetExecLabel env os3 (originalLabel ce)) as [e|];
    intros [= <- <-]; cbn [trace thread_locks fds exec_label log with_thread_locks
                             with_exec_label];
    rewrite <- app_assoc; repeat split; congruence.
Qed.

Lemma Cmd_Run_state (cmd : option Cmd) (os os3 : OS) (r : result error) :
  Cmd_Run env cmd os = (r, os3) -> os3 = log (EvRun cmd) os.
Proof. unfold Cmd_Run. destruct cmd; congruence. Qed.

Lemma getLabelForPID_state (p : Z) (os os1 : OS) (r : result (string * error)) :
  getLabelForPID env p os = (r, os1) -> os1 = log (EvFileLabel (attr_current p)) os.
Proof. rewrite getLabelForPID_eq. congruence. Qed.

End States.

(** ** The claims *)

(** C1, as amended.  When the label switch and the child both succeeded,
    [Execute] returns nil whatever [resetContext] returns: the restoration is
    attempted (the label set back to [originalLabel], then the thread
    released), and its error is dropped with the deferred call. *)
Theorem Execute_drops_restore_failure
    (env : Env) (ce : ContextExecutor) (os os1 os2 os3 os4 : OS) (r : result error) :
  isSELinuxEnabled env os = (Val true, os1) ->
  setDesiredContext env ce os1 = (Val None, os2) ->
  Cmd_Run env (cmdToExecute ce) (hygiene os2) = (Val None, os3) ->
  resetContext env ce os3 = (r, os4) ->
  Execute env ce os = (Val None, os4)
  /\ events_since os3 os4 = [EvSetExecLabel (originalLabel ce); EvUnlockOSThread].
Proof.
  intros Hen Hset Hrun Hreset.
  rewrite Execute_eq, Hen, Hset, Hrun, Hreset.
  destruct (resetContext_state _ _ _ _ _ Hreset) as (-> & Htr & _).
  split; [reflexivity|]. apply events_since_app. exact Htr.
Qed.

Lemma Execute_drops_restore_failure_witness :
  resetContext host_restore_denied ce_true
    (log (EvRun cmd_true) (hygiene (setDesiredContext host_restore_denied ce_true
                                      (log EvNewSELinux os0)).2))
  = (Val (Some "permission denied"), (Execute host_restore_denied ce_true os0).2)
  /\ (Execute host_restore_denied ce_true os0).1 = Val None.
Proof.
  split; [vm_compute; reflexivity|].
  assert (X : exists os4, Execute host_restore_denied ce_true os0 = (Val None, os4)).
  { eexists. eapply proj1.
    eapply (Execute_drops_restore_failure host_restore_denied ce_true os0);
      vm_compute; reflexivity. }
  destruct X as [os4 E]. rewrite E. reflexivity.
Defined.

(** C1, as stated, fails: on a host that refuses to set the label back,
    [/bin/true] under [ctx_b] succeeds, restoring [ctx_a] fails, and
    [Execute] returns nil. *)
Lemma restore_failure_is_not_returned :
  ~ restore_failure_is_returned host_restore_denied ce_true os0.
Proof.
  intros H.
  assert (E : (Execute host_restore_denied ce_true os0).1 = Val (Some "permission denied")).
  { eapply H; vm_compute; reflexivity. }
  vm_compute in E. discriminate E.
Qed.

(** C2.  Once the label switch has succeeded, whatever the child does
    (success, failure, or a panic of [Run]), [Execute] makes exactly one
    restoration attempt before it is left: after the switch the calls are the
    descriptor hygiene, the child, one [SetExecLabel originalLabel] and the
    thread release.  A failure of the child is returned wrapped with the
    target pid, and the label is back to [originalLabel] when the
    restoration succeeds. *)
Theorem Execute_restores_exactly_once
    (env : Env) (ce : ContextExecutor) (os os1 os2 os3 : OS) (r : result error) :
  isSELinuxEnabled env os = (Val true, os1) ->
  setDesiredContext env ce os1 = (Val None, os2) ->
  Cmd_Run env (cmdToExecute ce) (hygiene os2) = (r, os3) ->
  exists os4,
    Execute env ce os = (child_result ce r, os4)
    /\ events_since os2 os4
       = hygiene_events ++ [EvRun (cmdToExecute ce);
                            EvSetExecLabel (originalLabel ce);
                            EvUnlockOSThread]
    /\ label_sets (events_since os2 os4) = [originalLabel ce]
    /\ label_sets (events_since os os4) = [desiredLabel ce; originalLabel ce]
    /\ (forall e, r = Val (Some e) ->
          (Execute env ce os).1
          = Val (Some ("failed to execute command in launcher namespace "
                       +:+ pretty (pid ce) +:+ ": " +:+ e)))
    /\ (env_SetExecLabel env os3 (originalLabel ce) = None ->
          exec_label os4 = originalLabel ce).
Proof.
  intros Hen Hset Hrun.
  destruct (resetContext env ce os3) as [r' os4] eqn:Hreset.
  exists os4.
  destruct (resetContext_state _ _ _ _ _ Hreset) as (Hr' & Htr4 & _ & _ & Hlab).
  destruct (setDesiredContext_state _ _ _ _ _ Hset) as (Htr2 & _).
  assert (Hex : Execute env ce os = (child_result ce r, os4)).
  { rewrite Execute_eq, Hen, Hset, Hrun, Hreset, Hr'. reflexivity. }
  assert (Hsince : events_since os2 os4
                   = hygiene_events ++ [EvRun (cmdToExecute ce);
                                        EvSetExecLabel (originalLabel ce);
                                        EvUnlockOSThread]).
  { apply events_since_app. rewrite Htr4.
    rewrite (Cmd_Run_state _ _ _ _ _ Hrun), trace_log.
    rewrite hygiene_trace, <- !app_assoc. reflexivity. }
  repeat split.
  - exact Hex.
  - exact Hsince.
  - rewrite Hsince. unfold label_sets. rewrite omap_app. reflexivity.
  - rewrite (events_since_app os os4
               ([EvNewSELinux; EvLockOSThread; EvSetExecLabel (desiredLabel ce)]
                ++ hygiene_events
                ++ [EvRun (cmdToExecute ce); EvSetExecLabel (originalLabel ce);
                    EvUnlockOSThread])).
    2:{ rewrite Htr4, (Cmd_Run_state _ _ _ _ _ Hrun), trace_log.
        rewrite hygiene_trace, Htr2, (isSELinuxEnabled_state _ _ _ _ Hen), trace_log.
        rewrite <- !app_assoc. reflexivity. }
    unfold label_sets. rewrite !omap_app. reflexivity.
  - intros e ->. rewrite Hex. reflexivity.
  - intros Hok. apply Hlab. rewrite Hr', Hok. reflexivity.
Qed.

Lemma Execute_restores_exactly_once_witness :
  exists os4,
    Execute host_enforcing ce_false os0
    = (Val (Some "failed to execute command in launcher namespace 42: exit status 1"), os4)
    /\ label_sets (events_since os0 os4) = ["ctx_b"; "ctx_a"]
    /\ exec_label os4 = "ctx_a".
Proof.
  edestruct (Execute_restores_exactly_once host_enforcing ce_false os0)
    as (os4 & E & _ & _ & L & _ & X); [vm_compute; reflexivity ..|].
  exists os4. split; [exact E|]. split; [exact L|]. apply X. reflexivity.
Defined.

(** C3.  With MAC enabled, when the [SetExecLabel desiredLabel] call fails,
    [Execute] returns the switch error at once: the calls of the invocation
    are the probe, the thread lock and the failed label set; the child is not
    run, no second label set (no restoration) is made, the thread is not
    released (it stays locked once more than before), and label and
    descriptors are untouched. *)
Theorem Execute_switch_failure
    (env : Env) (ce : ContextExecutor) (os os1 os2 : OS) (e : string) :
  isSELinuxEnabled env os = (Val true, os1) ->
  selinux_SetExecLabel env (desiredLabel ce) (runtime_LockOSThread os1).2
    = (Val (Some e), os2) ->
  Execute env ce os
    = (Val (Some ("failed to switch selinux context to " +:+ desiredLabel ce
                  +:+ ". Reason: " +:+ e)), os2)
  /\ events_since os os2
     = [EvNewSELinux; EvLockOSThread; EvSetExecLabel (desiredLabel ce)]
  /\ runs (events_since os os2) = []
  /\ label_sets (events_since os os2) = [desiredLabel ce]
  /\ unlocks (events_since os os2) = 0%nat
  /\ thread_locks os2 = S (thread_locks os)
  /\ exec_label os2 = exec_label os
  /\ fds os2 = fds os.
Proof.
  intros Hen Hset.
  assert (Hsdc : setDesiredContext env ce os1
                 = (Val (Some ("failed to switch selinux context to " +:+ desiredLabel ce
                               +:+ ". Reason: " +:+ e)), os2)).
  { rewrite setDesiredContext_eq. cbv zeta.
    unfold selinux_SetExecLabel, runtime_LockOSThread in Hset. cbn [snd] in Hset.
    destruct (env_SetExecLabel env _ (desiredLabel ce)) as [e'|]; congruence. }
  destruct (setDesiredContext_state _ _ _ _ _ Hsdc) as (Htr & Hlocks & Hfds & _ & Hlab).
  pose proof (isSELinuxEnabled_state _ _ _ _ Hen) as Hos1.
  assert (Hsince : events_since os os2
                   = [EvNewSELinux; EvLockOSThread; EvSetExecLabel (desiredLabel ce)]).
  { apply events_since_app. rewrite Htr, Hos1, trace_log.
    rewrite <- !app_assoc. reflexivity. }
  split.
  { rewrite Execute_eq, Hen, Hsdc. reflexivity. }
  rewrite Hsince, Hlocks, Hfds, Hlab, Hos1 by discriminate. repeat split.
Qed.

Lemma Execute_switch_failure_witness :
  exists os2,
    Execute host_switch_denied ce_true os0
    = (Val (Some "failed to switch selinux context to ctx_b. Reason: permission denied"), os2)
    /\ events_since os0 os2 = [EvNewSELinux; EvLockOSThread; EvSetExecLabel "ctx_b"]
    /\ thread_locks os2 = 1%nat.
Proof.
  edestruct (Execute_switch_failure host_switch_denied ce_true os0)
    as (E & Ev & _ & _ & _ & L & _); [vm_compute; reflexivity ..|].
  eexists. split; [exact E|]. split; [exact Ev|exact L].
Defined.

(** C4.  When the probe reports MAC disabled, [Execute] makes no label call
    at all (no set, no restore), does not touch the thread's label, applies
    descriptor hygiene, runs the child, and returns what the child returns:
    nil when the child succeeds. *)
Theorem Execute_disabled
    (env : Env) (ce : ContextExecutor) (os os1 os3 : OS) (r : result error) :
  isSELinuxEnabled env os = (Val false, os1) ->
  Cmd_Run env (cmdToExecute ce) (hygiene os1) = (r, os3) ->
  Execute env ce os = (child_result ce r, os3)
  /\ events_since os os3 = [EvNewSELinux] ++ hygiene_events ++ [EvRun (cmdToExecute ce)]
  /\ label_sets (events_since os os3) = []
  /\ runs (events_since os os3) = [cmdToExecute ce]
  /\ exec_label os3 = exec_label os
  /\ thread_locks os3 = thread_locks os
  /\ fds os3 = fds (hygiene os)
  /\ (r = Val None -> Execute env ce os = (Val None, os3)).
Proof.
  intros Hen Hrun.
  assert (Hex : Execute env ce os = (child_result ce r, os3)).
  { rewrite Execute_eq, Hen, Hrun. reflexivity. }
  pose proof (isSELinuxEnabled_state _ _ _ _ Hen) as Hos1.
  pose proof (Cmd_Run_state _ _ _ _ _ Hrun) as Hos3.
  assert (Hsince : events_since os os3
                   = [EvNewSELinux] ++ hygiene_events ++ [EvRun (cmdToExecute ce)]).
  { apply events_since_app. rewrite Hos3, trace_log, hygiene_trace, Hos1, trace_log.
    rewrite <- !app_assoc. reflexivity. }
  split; [exact Hex|]. rewrite Hsince.
  split; [reflexivity|].
  split; [unfold label_sets; rewrite !omap_app; reflexivity|].
  split; [unfold runs; rewrite !omap_app; reflexivity|].
  split; [rewrite Hos3, exec_label_log, hygiene_exec_label, Hos1; apply exec_label_log|].
  split; [rewrite Hos3, thread_locks_log, hygiene_thread_locks, Hos1;
          apply thread_locks_log|].
  split; [rewrite Hos3, fds_log, Hos1; apply hygiene_fds_eq, fds_log|].
  intros ->. exact Hex.
Qed.

Lemma Execute_disabled_witness :
  exists os3,
    Execute host_disabled ce_true os0 = (Val None, os3)
    /\ label_sets (events_since os0 os3) = []
    /\ runs (events_since os0 os3) = [cmd_true]
    /\ fds os3 !! 3 = Some true.
Proof.
  edestruct (Execute_disabled host_disabled ce_true os0)
    as (_ & _ & L & R & _ & _ & F & E); [vm_compute; reflexivity ..|].
  eexists. split; [apply E; reflexivity|]. split; [exact L|]. split; [exact R|].
  rewrite F. vm_compute. reflexivity.
Defined.

(** C5.  [NewContextExecutor] is all or nothing.  If the resolution of the
    target's label fails, or that one succeeds and the resolution of the
    caller's own label fails, the result is nil together with the resolver's
    error; if both succeed, the executor holds the pid, the command and both
    labels.  In every case the construction sets no label, and leaves the
    thread's label, its wiring and the descriptors as they were. *)
Theorem NewContextExecutor_atomic (env : Env) (p : Z) (cmd : option Cmd) (os : OS) :
  (forall l e os1,
      getLabelForPID env p os = (Val (l, Some e), os1) ->
      NewContextExecutor env p cmd os = (Val (None, Some e), os1))
  /\ (forall l1 os1 l2 e os2,
        getLabelForPID env p os = (Val (l1, None), os1) ->
        getLabelForPID env (env_pid env) os1 = (Val (l2, Some e), os2) ->
        NewContextExecutor env p cmd os = (Val (None, Some e), os2))
  /\ (forall l1 os1 l2 os2,
        getLabelForPID env p os = (Val (l1, None), os1) ->
        getLabelForPID env (env_pid env) os1 = (Val (l2, None), os2) ->
        NewContextExecutor env p cmd os
        = (Val (Some {| pid := p; cmdToExecute := cmd;
                        desiredLabel := l1; originalLabel := l2 |}, None), os2))
  /\ (exists out os', NewContextExecutor env p cmd os = (Val out, os')
        /\ (out.1 = None <-> out.2 <> None)
        /\ label_sets (events_since os os') = []
        /\ exec_label os' = exec_label os
        /\ thread_locks os' = thread_locks os
        /\ fds os' = fds os).
Proof.
  split; [|split; [|split]].
  - intros l e os1 H1. rewrite NewContextExecutor_eq, H1. reflexivity.
  - intros l1 os1 l2 e os2 H1 H2. rewrite NewContextExecutor_eq, H1, H2. reflexivity.
  - intros l1 os1 l2 os2 H1 H2. rewrite NewContextExecutor_eq, H1, H2. reflexivity.
  - rewrite NewContextExecutor_eq, !getLabelForPID_eq.
    destruct (env_FileLabel env os (attr_current p)) as [l1 [e1|]].
    + eexists _, _. split; [reflexivity|].
      split; [simpl; split; [discriminate|reflexivity]|].
      split; [|repeat split].
      erewrite events_since_app by apply trace_log. reflexivity.
    + destruct (env_FileLabel env _ (attr_current (env_pid env))) as [l2 [e2|]].
      * eexists _, _. split; [reflexivity|].
        split; [simpl; split; [discriminate|reflexivity]|].
        split; [|repeat split].
        erewrite events_since_app
          by (rewrite !trace_log, <- app_assoc; reflexivity).
        reflexivity.
      * eexists _, _. split; [reflexivity|].
        split; [simpl; split; [discriminate|intros H; contradiction]|].
        split; [|repeat split].
        erewrite events_since_app
          by (rewrite !trace_log, <- app_assoc; reflexivity).
        reflexivity.
Qed.

Lemma NewContextExecutor_atomic_witness :
  (NewContextExecutor host_no_target 42 cmd_true os0).1
  = Val (None, Some "could not retrieve pid 42 selinux label: no such file or directory")
  /\ (NewContextExecutor host_no_self 42 cmd_true os0).1
     = Val (None, Some "could not retrieve pid 1 selinux label: no such file or directory")
  /\ (NewContextExecutor host_enforcing 42 cmd_true os0).1 = Val (Some ce_true, None).
Proof.
  split; [|split].
  - erewrite (proj1 (NewContextExecutor_atomic host_no_target 42 cmd_true os0));
      [reflexivity|vm_compute; reflexivity].
  - erewrite (proj1 (proj2 (NewContextExecutor_atomic host_no_self 42 cmd_true os0)));
      [reflexivity|vm_compute; reflexivity ..].
  - erewrite (proj1 (proj2 (proj2 (NewContextExecutor_atomic host_enforcing 42 cmd_true os0))));
      [reflexivity|vm_compute; reflexivity ..].
Defined.

(** ** The shapes of an [Execute] invocation *)

Lemma setDesiredContext_result (env : Env) (ce : ContextExecutor) (os1 : OS) :
  (setDesiredContext env ce os1).1 = Val None
  \/ exists e, (setDesiredContext env ce os1).1
               = Val (Some ("failed to switch selinux context to " +:+ desiredLabel ce
                            +:+ ". Reason: " +:+ e)).
Proof.
  rewrite setDesiredContext_eq. cbv zeta.
  destruct (env_SetExecLabel env _ (desiredLabel ce)) as [e|]; [right; exists e|left];
    reflexivity.
Qed.

Lemma isSELinuxEnabled_result (env : Env) (os : OS) :
  exists b, (isSELinuxEnabled env os).1 = Val b.
Proof. rewrite isSELinuxEnabled_eq. eexists. reflexivity. Qed.

(** The calls of an invocation, and what it leaves of the descriptors:
    [Execute] stops after a failed switch, or goes through the switched
    region, or runs the child unswitched. *)
Lemma Execute_shapes (env : Env) (ce : ContextExecutor) (os : OS) :
  (events_since os (Execute env ce os).2
   = [EvNewSELinux; EvLockOSThread; EvSetExecLabel (desiredLabel ce)]
   /\ fds (Execute env ce os).2 = fds os
   /\ exists e, (Execute env ce os).1
                = Val (Some ("failed to switch selinux context to " +:+ desiredLabel ce
                             +:+ ". Reason: " +:+ e)))
  \/ (events_since os (Execute env ce os).2
      = [EvNewSELinux; EvLockOSThread; EvSetExecLabel (desiredLabel ce)]
        ++ hygiene_events
        ++ [EvRun (cmdToExecute ce); EvSetExecLabel (originalLabel ce); EvUnlockOSThread]
      /\ fds (Execute env ce os).2 = fds (hygiene os))
  \/ (events_since os (Execute env ce os).2
      = [EvNewSELinux] ++ hygiene_events ++ [EvRun (cmdToExecute ce)]
      /\ fds (Execute env ce os).2 = fds (hygiene os)).
Proof.
  rewrite Execute_eq.
  destruct (isSELinuxEnabled_result env os) as [b Hb].
  destruct (isSELinuxEnabled env os) as [rb os1] eqn:Hen. simpl in Hb. subst rb.
  pose proof (isSELinuxEnabled_state _ _ _ _ Hen) as Hos1.
  destruct b.
  - pose proof (setDesiredContext_result env ce os1) as Hres.
    destruct (setDesiredContext env ce os1) as [rs os2] eqn:Hset. simpl in Hres.
    destruct (setDesiredContext_state _ _ _ _ _ Hset) as (Htr2 & _ & Hfds2 & _).
    destruct Hres as [->|[e ->]].
    + right; left.
      destruct (Cmd_Run env (cmdToExecute ce) (hygiene os2)) as [r os3] eqn:Hrun.
      destruct (resetContext env ce os3) as [r' os4] eqn:Hreset.
      destruct (resetContext_state _ _ _ _ _ Hreset) as (_ & Htr4 & _ & Hfds4 & _).
      pose proof (Cmd_Run_state _ _ _ _ _ Hrun) as Hos3.
      cbn [snd]. split.
      * apply events_since_app.
        rewrite Htr4, Hos3, trace_log, hygiene_trace, Htr2, Hos1, trace_log.
        rewrite <- !app_assoc. reflexivity.
      * rewrite Hfds4, Hos3, fds_log. apply hygiene_fds_eq.
        rewrite Hfds2, Hos1. apply fds_log.
    + left. cbn [fst snd]. split; [|split].
      * apply events_since_app. rewrite Htr2, Hos1, trace_log, <- !app_assoc. reflexivity.
      * rewrite Hfds2, Hos1. apply fds_log.
      * exists e. reflexivity.
  - right; right.
    destruct (Cmd_Run env (cmdToExecute ce) (hygiene os1)) as [r os3] eqn:Hrun.
    pose proof (Cmd_Run_state _ _ _ _ _ Hrun) as Hos3.
    cbn [snd]. split.
    + apply events_since_app.
      rewrite Hos3, trace_log, hygiene_trace, Hos1, trace_log, <- !app_assoc. reflexivity.
    + rewrite Hos3, fds_log. apply hygiene_fds_eq. rewrite Hos1. apply fds_log.
Qed.




(** C7.  With MAC enabled, [setDesiredContext] locks the thread before it
    sets the label, whatever the outcome of the label set; when the label set
    fails the thread is not released at all.  When the switch succeeded, whatever the child and the restoration do afterwards (child
    success, failure or panic; restoration success or failure), the
    invocation ends with the label restore followed by the one and only
    thread release, and the thread is wired as often as before the call. *)
Theorem Execute_thread_binding
    (env : Env) (ce : ContextExecutor) (os os1 : OS) :
  isSELinuxEnabled env os = (Val true, os1) ->
  events_since os1 (setDesiredContext env ce os1).2
    = [EvLockOSThread; EvSetExecLabel (desiredLabel ce)]
  /\ (forall e os2,
        setDesiredContext env ce os1 = (Val (Some e), os2) ->
        unlocks (events_since os1 (Execute env ce os).2) = 0%nat)
  /\ (forall os2,
        setDesiredContext env ce os1 = (Val None, os2) ->
        events_since os1 (Execute env ce os).2
          = [EvLockOSThread; EvSetExecLabel (desiredLabel ce)]
            ++ hygiene_events
            ++ [EvRun (cmdToExecute ce); EvSetExecLabel (originalLabel ce);
                EvUnlockOSThread]
        /\ unlocks (events_since os1 (Execute env ce os).2) = 1%nat
        /\ thread_locks (Execute env ce os).2 = thread_locks os
        /\ (forall e os4,
              resetContext env ce (log (EvRun (cmdToExecute ce)) (hygiene os2))
                = (Val (Some e), os4) ->
              (Execute env ce os).2 = os4
              /\ thread_locks os4 = thread_locks os
              /\ last (trace os4) = Some EvUnlockOSThread)).
Proof.
  intros Hen.
  pose proof (isSELinuxEnabled_state _ _ _ _ Hen) as Hos1.
  split.
  { destruct (setDesiredContext env ce os1) as [rs os2] eqn:Hset.
    apply events_since_app. apply (setDesiredContext_state _ _ _ _ _ Hset). }
  split.
  { intros e os2 Hset.
    rewrite Execute_eq, Hen, Hset. cbn [snd].
    erewrite events_since_app by apply (setDesiredContext_state _ _ _ _ _ Hset).
    reflexivity. }
  intros os2 Hset.
  destruct (setDesiredContext_state _ _ _ _ _ Hset) as (Htr2 & Hlocks2 & _).
  destruct (Cmd_Run env (cmdToExecute ce) (hygiene os2)) as [r os3] eqn:Hrun.
  pose proof (Cmd_Run_state _ _ _ _ _ Hrun) as Hos3.
  destruct (resetContext env ce os3) as [r' os4] eqn:Hreset.
  destruct (resetContext_state _ _ _ _ _ Hreset) as (_ & Htr4 & Hlocks4 & _).
  assert (Hex : (Execute env ce os).2 = os4).
  { rewrite Execute_eq, Hen, Hset, Hrun, Hreset. reflexivity. }
  assert (Hlocks : thread_locks os4 = thread_locks os).
  { rewrite Hlocks4, Hos3, thread_locks_log, hygiene_thread_locks, Hlocks2, Hos1.
    apply thread_locks_log. }
  assert (Hev : events_since os1 os4
                = [EvLockOSThread; EvSetExecLabel (desiredLabel ce)]
                  ++ hygiene_events
                  ++ [EvRun (cmdToExecute ce); EvSetExecLabel (originalLabel ce);
                      EvUnlockOSThread]).
  { apply events_since_app.
    rewrite Htr4, Hos3, trace_log, hygiene_trace, Htr2, <- !app_assoc. reflexivity. }
  rewrite Hex, Hev.
  split; [reflexivity|].
  split; [unfold unlocks; rewrite !omap_app, !length_app; reflexivity|].
  split; [exact Hlocks|].
  intros e os4' Hreset'. subst os3.
  rewrite Hreset in Hreset'. injection Hreset' as _ <-.
  split; [reflexivity|]. split; [exact Hlocks|].
  rewrite Htr4.
  change [EvSetExecLabel (originalLabel ce); EvUnlockOSThread]
    with ([EvSetExecLabel (originalLabel ce)] ++ [EvUnlockOSThread]).
  rewrite app_assoc. apply last_snoc.
Qed.

(** The binding is released although the host refuses to set the label
    back. *)
Lemma Execute_thread_binding_witness :
  env_SetExecLabel host_restore_denied os0 "ctx_a" = Some "permission denied"
  /\ unlocks (events_since (log EvNewSELinux os0) (Execute host_restore_denied ce_true os0).2)
     = 1%nat
  /\ thread_locks (Execute host_restore_denied ce_true os0).2 = 0%nat.
Proof.
  split; [vm_compute; reflexivity|].
  edestruct (Execute_thread_binding host_restore_denied ce_true os0) as (_ & _ & H);
    [vm_compute; reflexivity|].
  edestruct H as (_ & U & L & _); [vm_compute; reflexivity|].
  split; [exact U|exact L].
Defined.

(** C8.  When NewSELinux returns an error, whatever else it returns, the
    probe answers false and the error goes no further: [Execute] takes the
    unswitched path and its outcome is the child's, nil when the child
    succeeds. *)
Theorem isSELinuxEnabled_swallows_error
    (env : Env) (os : OS) (enabled : bool) (e : string) :
  env_NewSELinux env os = (enabled, Some e) ->
  isSELinuxEnabled env os = (Val false, log EvNewSELinux os)
  /\ (forall ce r os3,
        Cmd_Run env (cmdToExecute ce) (hygiene (log EvNewSELinux os)) = (r, os3) ->
        Execute env ce os = (child_result ce r, os3)
        /\ (r = Val None -> (Execute env ce os).1 = Val None)
        /\ label_sets (events_since os os3) = []).
Proof.
  intros Hnew.
  assert (Hen : isSELinuxEnabled env os = (Val false, log EvNewSELinux os)).
  { rewrite isSELinuxEnabled_eq, Hnew. reflexivity. }
  split; [exact Hen|].
  intros ce r os3 Hrun.
  assert (Hex : Execute env ce os = (child_result ce r, os3)).
  { rewrite Execute_eq, Hen, Hrun. reflexivity. }
  split; [exact Hex|]. split.
  - intros ->. rewrite Hex. reflexivity.
  - rewrite (events_since_app os os3
               ([EvNewSELinux] ++ hygiene_events ++ [EvRun (cmdToExecute ce)])).
    + unfold label_sets. rewrite !omap_app. reflexivity.
    + rewrite (Cmd_Run_state _ _ _ _ _ Hrun), trace_log, hygiene_trace, trace_log.
      rewrite <- !app_assoc. reflexivity.
Qed.

Lemma isSELinuxEnabled_swallows_error_witness :
  (isSELinuxEnabled host_without_selinux os0).1 = Val false
  /\ (Execute host_without_selinux ce_true os0).1 = Val None.
Proof.
  edestruct (isSELinuxEnabled_swallows_error host_without_selinux os0) as (P & H);
    [vm_compute; reflexivity|].
  split; [rewrite P; reflexivity|].
  edestruct (H ce_true) as (_ & E & _); [vm_compute; reflexivity|].
  apply E. reflexivity.
Defined.

(** Each call of the resolver is one read of the file of its pid, answered
    from the state at the time of the call. *)
Lemma getLabelForPID_reads_once (env : Env) (p : Z) (os : OS) :
  label_reads (events_since os (getLabelForPID env p os).2) = [attr_current p]
  /\ (is_err (env_FileLabel env os (attr_current p)).2 = false ->
      (getLabelForPID env p os).1
      = Val ((env_FileLabel env os (attr_current p)).1, None)).
Proof.
  rewrite getLabelForPID_eq. cbn [fst snd]. split.
  - erewrite events_since_app by apply trace_log. reflexivity.
  - destruct (env_FileLabel env os (attr_current p)) as [l [e|]];
      [discriminate|reflexivity].
Qed.

(** C9, as amended.  [NewContextExecutor] invokes the resolver first for the
    target pid and then, only if that resolution succeeded, for the caller's
    own pid: twice when the target's label resolves, once when it does not.
    Nothing is cached: each invocation is one read of the file of its pid,
    answered from the state at the time of that read. *)
Theorem resolver_invocations_spec (env : Env) (p : Z) (cmd : option Cmd) (os : OS) :
  resolver_invocations env p cmd os
  = (if is_err (env_FileLabel env os (attr_current p)).2
     then [attr_current p]
     else [attr_current p; attr_current (env_pid env)])
  /\ (forall q os1,
        label_reads (events_since os1 (getLabelForPID env q os1).2) = [attr_current q]
        /\ (is_err (env_FileLabel env os1 (attr_current q)).2 = false ->
            (getLabelForPID env q os1).1
            = Val ((env_FileLabel env os1 (attr_current q)).1, None))).
Proof.
  split; [|intros q os1; apply getLabelForPID_reads_once].
  unfold resolver_invocations.
  rewrite NewContextExecutor_eq, !getLabelForPID_eq.
  destruct (env_FileLabel env os (attr_current p)) as [l1 [e1|]]; cbn [snd is_err].
  - erewrite events_since_app by apply trace_log. reflexivity.
  - destruct (env_FileLabel env _ (attr_current (env_pid env))) as [l2 [e2|]];
      cbn [snd];
      (erewrite events_since_app
         by (rewrite !trace_log, <- app_assoc; reflexivity));
      reflexivity.
Qed.

(** C9, as stated, fails: when pid 42 has no readable label the resolver is
    invoked once, not twice. *)
Lemma resolver_not_invoked_twice :
  ~ resolver_invoked_twice host_no_target 42 cmd_true os0.
Proof. unfold resolver_invoked_twice. vm_compute. discriminate. Qed.

(** The second read is not answered from the first: asked twice for its own
    pid on a host where the label changes in between, the constructor
    captures two different labels. *)
Example NewContextExecutor_reads_afresh :
  (NewContextExecutor host_relabelled 1 cmd_true os0).1
  = Val (Some {| cmdToExecute := cmd_true; desiredLabel := "ctx_a";
                 originalLabel := "ctx_c"; pid := 1 |}, None)
  /\ resolver_invocations host_relabelled 1 cmd_true os0
     = ["/proc/1/attr/current"; "/proc/1/attr/current"].
Proof. split; vm_compute; reflexivity. Qed.

(** C10.  [NewContextExecutor] resolves the target's label first.  If that
    resolution fails, its error is returned with a nil executor, and the
    only call made is the read for the target: the caller's own label is
    never resolved. *)
Theorem NewContextExecutor_short_circuit
    (env : Env) (p : Z) (cmd : option Cmd) (os os1 : OS) (l e : string) :
  getLabelForPID env p os = (Val (l, Some e), os1) ->
  NewContextExecutor env p cmd os = (Val (None, Some e), os1)
  /\ events_since os os1 = [EvFileLabel (attr_current p)]
  /\ resolver_invocations env p cmd os = [attr_current p]
  /\ (exists f, e = "could not retrieve pid " +:+ pretty p +:+ " selinux label: " +:+ f
                /\ (env_FileLabel env os (attr_current p)).2 = Some f).
Proof.
  intros Hget.
  assert (Hnew : NewContextExecutor env p cmd os = (Val (None, Some e), os1)).
  { rewrite NewContextExecutor_eq, Hget. reflexivity. }
  assert (Hev : events_since os os1 = [EvFileLabel (attr_current p)]).
  { apply events_since_app. rewrite (getLabelForPID_state _ _ _ _ _ Hget).
    apply trace_log. }
  split; [exact Hnew|]. split; [exact Hev|]. split.
  - unfold resolver_invocations. rewrite Hnew. cbn [snd]. rewrite Hev. reflexivity.
  - rewrite getLabelForPID_eq in Hget.
    destruct (env_FileLabel env os (attr_current p)) as [l1 [f|]];
      [|discriminate Hget].
    exists f. split; [congruence|reflexivity].
Qed.

Lemma NewContextExecutor_short_circuit_witness :
  NewContextExecutor host_no_target 42 cmd_true os0
  = (Val (None, Some "could not retrieve pid 42 selinux label: no such file or directory"),
     log (EvFileLabel "/proc/42/attr/current") os0).
Proof.
  eapply proj1.
  eapply (NewContextExecutor_short_circuit host_no_target 42 cmd_true os0).
  vm_compute. reflexivity.
Defined.

(** ** Further properties of [Execute] *)

Lemma Cmd_Run_result (env : Env) (cmd : option Cmd) (os : OS) :
  (exists c, cmd = Some c /\ (Cmd_Run env cmd os).1 = Val (env_Run env os c))
  \/ (cmd = None
      /\ (Cmd_Run env cmd os).1 = Panic "invalid memory address or nil pointer dereference").
Proof.
  destruct cmd as [c|]; [left; exists c|right]; split; reflexivity.
Qed.

Lemma child_result_forms (ce : ContextExecutor) (r : result error) :
  child_result ce r = Val None
  \/ (exists e, child_result ce r
                = Val (Some ("failed to execute command in launcher namespace "
                             +:+ pretty (pid ce) +:+ ": " +:+ e)))
  \/ (exists p, r = Panic p /\ child_result ce r = Panic p).
Proof.
  destruct r as [[e|]|p]; [right; left; exists e|left|right; right; exists p; split];
    reflexivity.
Qed.

(** X1.  What [Execute] hands to its caller: nil, the error of the label switch,
    the child's error wrapped with the pid, or the panic of running a nil
    command.  No other value, in particular no restoration error and no
    probe error, comes out of it. *)
Theorem Execute_result_forms (env : Env) (ce : ContextExecutor) (os : OS) :
  (Execute env ce os).1 = Val None
  \/ (exists e, (Execute env ce os).1
                = Val (Some ("failed to switch selinux context to " +:+ desiredLabel ce
                             +:+ ". Reason: " +:+ e)))
  \/ (exists e, (Execute env ce os).1
                = Val (Some ("failed to execute command in launcher namespace "
                             +:+ pretty (pid ce) +:+ ": " +:+ e)))
  \/ (cmdToExecute ce = None
      /\ (Execute env ce os).1
         = Panic "invalid memory address or nil pointer dereference").
Proof.
  assert (Hchild : forall osr r os3,
             Cmd_Run env (cmdToExecute ce) osr = (r, os3) ->
             child_result ce r = Val None
             \/ (exists e, child_result ce r
                           = Val (Some ("failed to execute command in launcher namespace "
                                        +:+ pretty (pid ce) +:+ ": " +:+ e)))
             \/ (cmdToExecute ce = None
                 /\ child_result ce r
                    = Panic "invalid memory address or nil pointer dereference")).
  { intros osr r os3 Hrun.
    destruct (child_result_forms ce r) as [H|[H|(p & -> & H)]]; [tauto|tauto|].
    right; right.
    destruct (Cmd_Run_result env (cmdToExecute ce) osr) as [(c & _ & Hc)|[Hnil Hp]].
    - rewrite Hrun in Hc. discriminate Hc.
    - rewrite Hrun in Hp. cbn [fst] in Hp. split; [exact Hnil|]. rewrite H. exact Hp. }
  rewrite Execute_eq.
  destruct (isSELinuxEnabled_result env os) as [b Hb].
  destruct (isSELinuxEnabled env os) as [rb os1]. simpl in Hb. subst rb.
  destruct b.
  - pose proof (setDesiredContext_result env ce os1) as Hres.
    destruct (setDesiredContext env ce os1) as [rs os2]. simpl in Hres.
    destruct Hres as [->|[e ->]]; [|right; left; exists e; reflexivity].
    destruct (Cmd_Run env (cmdToExecute ce) (hygiene os2)) as [r os3] eqn:Hrun.
    destruct (resetContext env ce os3) as [r' os4] eqn:Hreset.
    destruct (resetContext_state _ _ _ _ _ Hreset) as (-> & _).
    cbn [fst].
    destruct (Hchild _ _ _ Hrun) as [H|[H|H]]; tauto.
  - destruct (Cmd_Run env (cmdToExecute ce) (hygiene os1)) as [r os3] eqn:Hrun.
    cbn [fst].
    destruct (Hchild _ _ _ Hrun) as [H|[H|H]]; tauto.
Qed.

(** X2.  The constructor takes a nil command as it is, and [Execute] on such an
    executor never succeeds: it returns the switch error, or panics with the
    nil dereference of [cmd.Run()]. *)
Theorem Execute_nil_command (env : Env) (ce : ContextExecutor) (os : OS) :
  cmdToExecute ce = None ->
  (exists e, (Execute env ce os).1
             = Val (Some ("failed to switch selinux context to " +:+ desiredLabel ce
                          +:+ ". Reason: " +:+ e)))
  \/ (Execute env ce os).1 = Panic "invalid memory address or nil pointer dereference".
Proof.
  intros Hnil.
  rewrite Execute_eq, Hnil.
  destruct (isSELinuxEnabled_result env os) as [b Hb].
  destruct (isSELinuxEnabled env os) as [rb os1]. simpl in Hb. subst rb.
  destruct b.
  - pose proof (setDesiredContext_result env ce os1) as Hres.
    destruct (setDesiredContext env ce os1) as [rs os2]. simpl in Hres.
    destruct Hres as [->|[e ->]]; [|left; exists e; reflexivity].
    right. cbn [Cmd_Run].
    destruct (resetContext env ce _) as [r' os4] eqn:Hreset.
    destruct (resetContext_state _ _ _ _ _ Hreset) as (-> & _).
    reflexivity.
  - right. reflexivity.
Qed.

Lemma Execute_nil_command_witness :
  (NewContextExecutor host_enforcing 42 None os0).1 = Val (Some ce_nil, None)
  /\ (Execute host_enforcing ce_nil os0).1
     = Panic "invalid memory address or nil pointer dereference".
Proof.
  split; [vm_compute; reflexivity|].
  destruct (Execute_nil_command host_enforcing ce_nil os0 eq_refl) as [[e H]|H].
  - vm_compute in H. discriminate H.
  - exact H.
Defined.

(** X3.  The child is run at most once, and never before descriptor hygiene is
    complete: an invocation either stops at the failed switch, with no
    [CloseOnExec] and no [Run], or its calls are some label and thread calls,
    then the [CloseOnExec] calls for 3 to 255 in order, then the single
    [Run], then calls that again neither run nor mark anything. *)
Theorem Execute_runs_child_after_hygiene (env : Env) (ce : ContextExecutor) (os : OS) :
  (runs (events_since os (Execute env ce os).2) = []
   /\ closes (events_since os (Execute env ce os).2) = []
   /\ exists e, (Execute env ce os).1
                = Val (Some ("failed to switch selinux context to " +:+ desiredLabel ce
                             +:+ ". Reason: " +:+ e)))
  \/ (exists pre post,
        events_since os (Execute env ce os).2
        = pre ++ (EvCloseOnExec <$> seqZ 3 253) ++ [EvRun (cmdToExecute ce)] ++ post
        /\ runs pre = [] /\ closes pre = []
        /\ runs post = [] /\ closes post = []).
Proof.
  destruct (Execute_shapes env ce os)
    as [(Hev & _ & Herr)|[(Hev & _)|(Hev & _)]]; rewrite Hev.
  - left. split; [reflexivity|]. split; [reflexivity|exact Herr].
  - right.
    exists [EvNewSELinux; EvLockOSThread; EvSetExecLabel (desiredLabel ce)],
           [EvSetExecLabel (originalLabel ce); EvUnlockOSThread].
    repeat split.
  - right. exists [EvNewSELinux], []. repeat split.
Qed.

(** X4.  [Execute] works with the labels captured at construction: it never reads
    a label file.  It asks the probe exactly once, before anything else. *)
Theorem Execute_never_reads_labels (env : Env) (ce : ContextExecutor) (os : OS) :
  label_reads (events_since os (Execute env ce os).2) = []
  /\ probes (events_since os (Execute env ce os).2) = 1%nat
  /\ head (events_since os (Execute env ce os).2) = Some EvNewSELinux.
Proof.
  destruct (Execute_shapes env ce os)
    as [(Hev & _)|[(Hev & _)|(Hev & _)]]; rewrite Hev.
  - repeat split.
  - unfold label_reads, probes. rewrite !omap_app, !length_app. repeat split.
  - unfold label_reads, probes. rewrite !omap_app, !length_app. repeat split.
Qed.

(** ** Further properties of descriptor hygiene *)

(** X5.  Running [preventFDLeakOntoChild] a second time changes no descriptor. *)
Theorem preventFDLeakOntoChild_idempotent (os : OS) :
  fds (preventFDLeakOntoChild (preventFDLeakOntoChild os).2).2
  = fds (preventFDLeakOntoChild os).2.
Proof.
  rewrite !preventFDLeakOntoChild_eq. cbn [snd].
  apply map_eq. intros fd. rewrite !hygiene_fds_lookup.
  destruct (decide (3 <= fd <= 255)); [|reflexivity].
  destruct (fds os !! fd); reflexivity.
Qed.

(** X6.  [preventFDLeakOntoChild] opens and closes nothing, and never clears a
    close-on-exec flag that was set. *)
Theorem preventFDLeakOntoChild_keeps_open_set (os : OS) :
  dom (fds (preventFDLeakOntoChild os).2) = dom (fds os)
  /\ (forall fd, fds os !! fd = Some true ->
                 fds (preventFDLeakOntoChild os).2 !! fd = Some true).
Proof.
  rewrite preventFDLeakOntoChild_eq. cbn [snd]. split.
  - apply set_eq. intros fd. rewrite !elem_of_dom, hygiene_fds_lookup.
    destruct (decide (3 <= fd <= 255)); [|reflexivity].
    rewrite fmap_is_Some. reflexivity.
  - intros fd Hset. rewrite hygiene_fds_lookup, Hset.
    destruct (decide (3 <= fd <= 255)); reflexivity.
Qed.

(** X7.  When the restoration fails after a successful switch, the thread keeps
    the target's label: [Execute] leaves the exec label at [desiredLabel],
    releases the thread all the same, and reports only the child's outcome. *)
Theorem Execute_restore_failure_keeps_desired_label
    (env : Env) (ce : ContextExecutor) (os os1 os2 os3 os4 : OS)
    (r : result error) (e : string) :
  isSELinuxEnabled env os = (Val true, os1) ->
  setDesiredContext env ce os1 = (Val None, os2) ->
  Cmd_Run env (cmdToExecute ce) (preventFDLeakOntoChild os2).2 = (r, os3) ->
  resetContext env ce os3 = (Val (Some e), os4) ->
  Execute env ce os = (child_result ce r, os4)
  /\ exec_label os4 = desiredLabel ce
  /\ thread_locks os4 = thread_locks os.
Proof.
  rewrite preventFDLeakOntoChild_eq. cbn [snd].
  intros Hen Hset Hrun Hreset.
  split; [rewrite Execute_eq, Hen, Hset, Hrun, Hreset; reflexivity|].
  destruct (setDesiredContext_state _ _ _ _ _ Hset) as (_ & Hlocks2 & _ & Hlab2 & _).
  pose proof (Cmd_Run_state _ _ _ _ _ Hrun) as Hos3.
  pose proof (isSELinuxEnabled_state _ _ _ _ Hen) as Hos1.
  rewrite resetContext_eq in Hreset.
  destruct (env_SetExecLabel env os3 (originalLabel ce)) as [e'|]; [|discriminate Hreset].
  injection Hreset as _ <-.
  split.
  - change (exec_label os3 = desiredLabel ce).
    rewrite Hos3, exec_label_log, hygiene_exec_label. apply Hlab2. reflexivity.
  - change (Nat.pred (thread_locks os3) = thread_locks os).
    rewrite Hos3, thread_locks_log, hygiene_thread_locks, Hlocks2, Hos1.
    apply thread_locks_log.
Qed.

Lemma Execute_restore_failure_keeps_desired_label_witness :
  exists os4,
    Execute host_restore_denied ce_false os0
    = (Val (Some "failed to execute command in launcher namespace 42: exit status 1"), os4)
    /\ exec_label os0 = "ctx_a" /\ exec_label os4 = "ctx_b"
    /\ thread_locks os4 = 0%nat.
Proof.
  edestruct (Execute_restore_failure_keeps_desired_label host_restore_denied ce_false os0)
    as (E & L & T); [vm_compute; reflexivity ..|].
  eexists. split; [exact E|]. split; [reflexivity|]. split; [exact L|exact T].
Defined.

(** ** Further properties of the construction *)


(** X9.  An executor that comes out of the constructor comes with a nil error and
    carries the pid and the command it was given, the label read for the
    target as [desiredLabel], and the label read afterwards for the calling
    process as [originalLabel]. *)
Theorem NewContextExecutor_built
    (env : Env) (p : Z) (cmd : option Cmd) (os os' : OS)
    (ce : ContextExecutor) (err : error) :
  NewContextExecutor env p cmd os = (Val (Some ce, err), os') ->
  err = None
  /\ pid ce = p
  /\ cmdToExecute ce = cmd
  /\ env_FileLabel env os (attr_current p) = (desiredLabel ce, None)
  /\ env_FileLabel env (log (EvFileLabel (attr_current p)) os)
       (attr_current (env_pid env))
     = (originalLabel ce, None).
Proof.
  rewrite NewContextExecutor_eq, !getLabelForPID_eq.
  destruct (env_FileLabel env os (attr_current p)) as [l1 [e1|]];
    [discriminate|].
  destruct (env_FileLabel env _ (attr_current (env_pid env))) as [l2 [e2|]];
    [discriminate|].
  intros [= <- <- _]. repeat split.
Qed.

Lemma NewContextExecutor_built_witness :
  pid ce_true = 42 /\ desiredLabel ce_true = "ctx_b" /\ originalLabel ce_true = "ctx_a"
  /\ env_FileLabel host_enforcing os0 "/proc/42/attr/current" = ("ctx_b", None).
Proof.
  destruct (NewContextExecutor_built host_enforcing 42 cmd_true os0
              (NewContextExecutor host_enforcing 42 cmd_true os0).2 ce_true None)
    as (_ & P & _ & D & _); [vm_compute; reflexivity|].
  split; [exact P|]. split; [reflexivity|]. split; [reflexivity|exact D].
Defined.

Lemma string_app_inv_tail (a b t : string) : a +:+ t = b +:+ t -> a = b.
Proof.
  intros H.
  apply (f_equal list_ascii_of_string) in H.
  assert (Happ : forall x y,
             list_ascii_of_string (x +:+ y)
             = list_ascii_of_string x ++ list_ascii_of_string y).
  { induction x as [|c x IH]; intros y; simpl; [reflexivity|].
    rewrite IH. reflexivity. }
  rewrite !Happ in H. apply app_inv_tail in H.
  rewrite <- (string_of_list_ascii_of_string a), H.
  apply string_of_list_ascii_of_string.
Qed.

(** X10.  The resolver reads a different file for each pid: for two different
    pids the paths /proc/<pid>/attr/current it reads differ. *)
Theorem getLabelForPID_path_inj (env : Env) (p q : Z) (os : OS) :
  p <> q ->
  label_reads (events_since os (getLabelForPID env p os).2)
  <> label_reads (events_since os (getLabelForPID env q os).2).
Proof.
  intros Hne.
  rewrite (proj1 (getLabelForPID_reads_once env p os)).
  rewrite (proj1 (getLabelForPID_reads_once env q os)).
  intros [= H]. unfold attr_current in H.
  apply String.app_inj in H.
  apply string_app_inv_tail in H.
  apply (inj pretty) in H. exact (Hne H).
Qed.

Lemma getLabelForPID_path_inj_witness :
  label_reads (events_since os0 (getLabelForPID host_enforcing 42 os0).2)
  <> label_reads (events_since os0 (getLabelForPID host_enforcing (-42) os0).2).
Proof.
  apply (getLabelForPID_path_inj host_enforcing 42 (-42) os0). discriminate.
Defined.

(** ** Construction, then execution *)

(** X11.  The label [Execute] switches to is the one the constructor read for the
    target, whatever the host looks like by the time of the execution: with
    MAC enabled, the first label set of the invocation is to the label read
    from /proc/<pid>/attr/current at construction. *)
Theorem Execute_switches_to_captured_label
    (env : Env) (p : Z) (cmd : option Cmd) (os os' : OS)
    (ce : ContextExecutor) (err : error) (env' : Env) (os'' os1 : OS) :
  NewContextExecutor env p cmd os = (Val (Some ce, err), os') ->
  isSELinuxEnabled env' os'' = (Val true, os1) ->
  head (label_sets (events_since os'' (Execute env' ce os'').2))
  = Some (env_FileLabel env os (attr_current p)).1.
Proof.
  intros Hnew Hen.
  destruct (NewContextExecutor_built _ _ _ _ _ _ _ Hnew) as (_ & _ & _ & -> & _).
  cbn [fst].
  pose proof (isSELinuxEnabled_state _ _ _ _ Hen) as Hos1.
  rewrite Execute_eq, Hen.
  pose proof (setDesiredContext_result env' ce os1) as Hres.
  destruct (setDesiredContext env' ce os1) as [rs os2] eqn:Hset. cbn [fst] in Hres.
  destruct (setDesiredContext_state _ _ _ _ _ Hset) as (Htr2 & _).
  destruct Hres as [->|[e ->]].
  - destruct (Cmd_Run env' (cmdToExecute ce) (hygiene os2)) as [r os3] eqn:Hrun.
    destruct (resetContext env' ce os3) as [r' os4] eqn:Hreset.
    destruct (resetContext_state _ _ _ _ _ Hreset) as (_ & Htr4 & _).
    cbn [snd].
    erewrite events_since_app.
    2:{ rewrite Htr4, (Cmd_Run_state _ _ _ _ _ Hrun), trace_log, hygiene_trace,
          Htr2, Hos1, trace_log, <- !app_assoc. reflexivity. }
    reflexivity.
  - cbn [snd].
    erewrite events_since_app.
    2:{ rewrite Htr2, Hos1, trace_log, <- !app_assoc. reflexivity. }
    reflexivity.
Qed.

(** Built where pid 42 is labelled ctx_b, run on a host that refuses that
    label: the label asked for is still ctx_b. *)
Lemma Execute_switches_to_captured_label_witness :
  head (label_sets (events_since os0 (Execute host_switch_denied ce_true os0).2))
  = Some "ctx_b".
Proof.
  erewrite (Execute_switches_to_captured_label host_enforcing 42 cmd_true os0 _
              ce_true None host_switch_denied os0);
    [vm_compute; reflexivity|vm_compute; reflexivity ..].
Defined.
